(** * The sales-case router of CidaJoias (app/routers/sales_cases.py)

    The router exposes four endpoints under the prefix [/sales-cases]:
    create, list, read one, and process a return.  Every handler calls one
    function of the [crud] module, and two of them translate the exceptions
    that call raises into [HTTPException]s.

    The embedding keeps Python's own vocabulary: exception objects carry a
    class, [except C] matches with [isinstance], a handler either returns a
    value or raises, and the database behind the [Session] is threaded as
    explicit state through every call. *)

From Stdlib Require Import ZArith String List Bool Lia DecimalString.
Import ListNotations.
Local Open Scope string_scope.
Local Open Scope Z_scope.

(** ** Python exceptions *)

Module Py.

(** A class is known by its name and its direct bases. *)
#[local] Set Warnings "-register-all".
Inductive pyclass : Type :=
| PyClass (name : string) (bases : list pyclass).

Definition class_name (c : pyclass) : string :=
  match c with PyClass n _ => n end.

Definition class_bases (c : pyclass) : list pyclass :=
  match c with PyClass _ bs => bs end.

(** [issubclass c d]: [c] is [d] or one of the bases of [c] is a subclass
    of [d]. *)
Fixpoint issubclass (c d : pyclass) {struct c} : bool :=
  match c with
  | PyClass n bs =>
      String.eqb n (class_name d)
      || (fix any (l : list pyclass) : bool :=
            match l with
            | [] => false
            | b :: r => issubclass b d || any r
            end) bs
  end.

(** The part of the built-in hierarchy the router mentions. *)
Definition BaseException : pyclass := PyClass "BaseException" [].
Definition Exception : pyclass := PyClass "Exception" [BaseException].
Definition ValueError : pyclass := PyClass "ValueError" [Exception].
Definition OSError : pyclass := PyClass "OSError" [Exception].
Definition PermissionError : pyclass := PyClass "PermissionError" [OSError].

(** [fastapi.HTTPException] derives from [Exception] only. *)
Definition HTTPException_class : pyclass := PyClass "HTTPException" [Exception].

(** An exception object: either an [HTTPException(status_code, detail)], or
    an object of any other class together with what [str] gives on it. *)
Inductive exception : Type :=
| HTTPException (status_code : Z) (detail : string)
| Exc (cls : pyclass) (message : string).

Definition type_of (e : exception) : pyclass :=
  match e with
  | HTTPException _ _ => HTTPException_class
  | Exc c _ => c
  end.

Definition isinstance (e : exception) (c : pyclass) : bool :=
  issubclass (type_of e) c.

(** [str(e)].  An [HTTPException] prints as [status_code: detail]. *)
Definition str (e : exception) : string :=
  match e with
  | HTTPException c d => NilZero.string_of_int (Z.to_int c) ++ ": " ++ d
  | Exc _ m => m
  end.

End Py.
Export Py.

(** ** Calls that return or raise, over the database state *)

Inductive outcome (A : Type) : Type :=
| Returns (a : A)
| Raises (e : exception).
Arguments Returns {A} a.
Arguments Raises {A} e.

(** A computation runs against the state behind the session and leaves a
    state behind, whether it returns or raises. *)
Definition call (S A : Type) : Type := S -> outcome A * S.

Definition ret {S A : Type} (a : A) : call S A :=
  fun db => (Returns a, db).

Definition raise {S A : Type} (e : exception) : call S A :=
  fun db => (Raises e, db).

Definition bind {S A B : Type} (m : call S A) (k : A -> call S B) : call S B :=
  fun db =>
    match m db with
    | (Returns a, db') => k a db'
    | (Raises e, db') => (Raises e, db')
    end.

Notation "x <- m ;; k" := (bind m (fun x => k))
  (at level 61, m at next level, right associativity).

(** [except C as e: h e] *)
Definition except_clause (S A : Type) : Type :=
  (pyclass * (exception -> call S A))%type.

(** The clauses are tried in order; the first whose class the exception is
    an instance of handles it; with none, the exception goes on. *)
Fixpoint dispatch {S A : Type} (clauses : list (except_clause S A))
    (e : exception) : call S A :=
  match clauses with
  | [] => raise e
  | (c, h) :: rest => if isinstance e c then h e else dispatch rest e
  end.

(** [try: body  except ...] *)
Definition try_except {S A : Type} (body : call S A)
    (clauses : list (except_clause S A)) : call S A :=
  fun db =>
    match body db with
    | (Returns a, db') => (Returns a, db')
    | (Raises e, db') => dispatch clauses e db'
    end.

(** ** fastapi.status *)

Definition HTTP_200_OK : Z := 200.
Definition HTTP_201_CREATED : Z := 201.
Definition HTTP_400_BAD_REQUEST : Z := 400.
Definition HTTP_403_FORBIDDEN : Z := 403.

(** ** app.models *)

(** Modelled from the spec: [models.UserRole], [models.User] and
    [models.SalesCase] are declared in app/models.py, which is not among the
    sources.  The spec's data model gives a user an [id] and a [role] that
    is ADMIN or SALES_REP, and a sales case a [case_id], a [sales_rep_id]
    and an enumerated [status]; the members of [SalesCaseStatus] are not
    known, so the type of a status stays a parameter. *)
Inductive UserRole : Type := ADMIN | SALES_REP.

Definition UserRole_eqb (a b : UserRole) : bool :=
  match a, b with
  | ADMIN, ADMIN | SALES_REP, SALES_REP => true
  | _, _ => false
  end.

(** Modelled from the spec: [models.User] (app/models.py), "has [id] and
    [role]". *)
Record User : Type := mkUser { id : Z; role : UserRole }.

(** Modelled from the spec: [models.SalesCase] (app/models.py), "identified
    by [case_id]; has [sales_rep_id], a [status] (enumerated)". *)
Record SalesCase (SalesCaseStatus : Type) : Type := mkSalesCase {
  case_id : Z;
  sales_rep_id : Z;
  status : SalesCaseStatus
}.
Arguments mkSalesCase {SalesCaseStatus} case_id sales_rep_id status.
Arguments case_id {SalesCaseStatus} s.
Arguments sales_rep_id {SalesCaseStatus} s.
Arguments status {SalesCaseStatus} s.

(** ** The handlers *)

Section Handlers.

(** The session, the request and response schemas and the status enum come
    from modules outside the router; it never looks inside them. *)
Context {Session SalesCaseStatus : Type}.
Context {SalesCaseCreate SalesCaseReturnRequest SalesCaseReturnReport : Type}.

(** The four functions of [crud] the router calls.  The [db] argument each
    of them takes is the state the call runs against. *)
Variable create_sales_case :
  SalesCaseCreate -> call Session (SalesCase SalesCaseStatus).
Variable get_sales_cases :
  User -> option SalesCaseStatus -> option Z ->
  call Session (list (SalesCase SalesCaseStatus)).
Variable get_sales_case :
  Z -> call Session (option (SalesCase SalesCaseStatus)).
Variable process_sales_case_return :
  Z -> SalesCaseReturnRequest -> User -> call Session SalesCaseReturnReport.

(** POST /sales-cases/ *)
Definition create_new_sales_case (case_create : SalesCaseCreate)
    (current_admin : User) : call Session (SalesCase SalesCaseStatus) :=
  try_except
    (new_case <- create_sales_case case_create ;;
     ret new_case)
    [ (ValueError,
       fun e => raise (HTTPException HTTP_400_BAD_REQUEST (str e))) ].

(** GET /sales-cases/ *)
Definition read_sales_cases (status : option SalesCaseStatus)
    (sales_rep_id : option Z) (current_user : User)
    : call Session (list (SalesCase SalesCaseStatus)) :=
  cases <- get_sales_cases current_user status sales_rep_id ;;
  ret cases.

(** GET /sales-cases/{case_id} *)
Definition read_sales_case (case_id : Z) (current_user : User)
    : call Session (SalesCase SalesCaseStatus) :=
  db_case <- get_sales_case case_id ;;
  match db_case with
  | None => raise (HTTPException 404 "Sales case not found")
  | Some db_case =>
      if UserRole_eqb (role current_user) SALES_REP
         && negb (sales_rep_id db_case =? id current_user)
      then raise (HTTPException 403 "Not authorized to view this sales case")
      else ret db_case
  end.

(** POST /sales-cases/{case_id}/return *)
Definition return_sales_case (case_id : Z)
    (return_request : SalesCaseReturnRequest) (current_user : User)
    : call Session SalesCaseReturnReport :=
  try_except
    (report <- process_sales_case_return case_id return_request current_user ;;
     ret report)
    [ (ValueError,
       fun e => raise (HTTPException HTTP_400_BAD_REQUEST (str e)));
      (PermissionError,
       fun e => raise (HTTPException HTTP_403_FORBIDDEN (str e))) ].

End Handlers.

(** ** The route table *)

Inductive http_method : Type := GET | POST.

(** What a decorator of [router] records: method, path under the prefix,
    and the status code of a successful response (200 when not given). *)
Record route : Type := mkRoute {
  route_method : http_method;
  route_path : string;
  route_status_code : Z
}.

Definition prefix : string := "/sales-cases".

Definition create_route : route := mkRoute POST (prefix ++ "/") HTTP_201_CREATED.
Definition list_route : route := mkRoute GET (prefix ++ "/") HTTP_200_OK.
Definition read_route : route := mkRoute GET (prefix ++ "/{case_id}") HTTP_200_OK.
Definition return_route : route :=
  mkRoute POST (prefix ++ "/{case_id}/return") HTTP_200_OK.

(** What the framework sends for a handler's outcome: the returned value
    under the route's status code, an [HTTPException] as its own status code
    and detail, and nothing of the router's making for any other
    exception. *)
Inductive response (B : Type) : Type :=
| Response (status_code : Z) (body : B)
| ErrorResponse (status_code : Z) (detail : string)
| Unhandled (e : exception).
Arguments Response {B} status_code body.
Arguments ErrorResponse {B} status_code detail.
Arguments Unhandled {B} e.

Definition respond {B : Type} (r : route) (o : outcome B) : response B :=
  match o with
  | Returns b => Response (route_status_code r) b
  | Raises (HTTPException c d) => ErrorResponse c d
  | Raises e => Unhandled e
  end.

(** ** app.crud: the listing query *)

Section CrudModel.

Context {SalesCaseStatus : Type}.
Variable status_eqb : SalesCaseStatus -> SalesCaseStatus -> bool.

(** Modelled from the spec: the filters of [crud.get_sales_cases] (app/crud.py
    is not among the sources); a case passes the filters that are given. *)
Definition passes_filters (status_filter : option SalesCaseStatus)
    (rep_filter : option Z) (c : SalesCase SalesCaseStatus) : bool :=
  match status_filter with
  | None => true
  | Some s => status_eqb (status c) s
  end
  && match rep_filter with
     | None => true
     | Some r => sales_rep_id c =? r
     end.

(** Modelled from the spec: [crud.get_sales_cases] lives in app/crud.py,
    which is not among the sources.  The spec: "admin may pass any filter; a
    sales rep is always scoped to their own cases regardless of requested
    filter (enforced inside CRUD, trusted by router)".  The session is the
    table of cases; the query reads it and leaves it as it is. *)
Definition crud_get_sales_cases (current_user : User)
    (status_filter : option SalesCaseStatus) (rep_filter : option Z)
    : call (list (SalesCase SalesCaseStatus)) (list (SalesCase SalesCaseStatus)) :=
  fun db =>
    let scope :=
      match role current_user with
      | SALES_REP => Some (id current_user)
      | ADMIN => rep_filter
      end in
    (Returns (filter (passes_filters status_filter scope) db), db).

End CrudModel.

(** ** Sample collaborators and data *)

Module Sample.

(** A collaborator call with a fixed outcome, whatever the database. *)
Definition answers {S A : Type} (o : outcome A) : call S A :=
  fun db => (o, db).

(** A lookup by primary key in a table of cases. *)
Definition lookup (case_id' : Z)
    : call (list (SalesCase string)) (option (SalesCase string)) :=
  fun db => (Returns (find (fun c => case_id c =? case_id') db), db).

Definition admin : User := mkUser 1 ADMIN.
Definition rep7 : User := mkUser 7 SALES_REP.

Definition case10 : SalesCase string := mkSalesCase 10 7 "OPEN".
Definition case11 : SalesCase string := mkSalesCase 11 8 "OPEN".
Definition table : list (SalesCase string) := [case10; case11].

Definition out_of_stock : exception := Exc ValueError "Insufficient stock".
Definition not_yours : exception := Exc PermissionError "Not your sales case".
Definition db_down : exception :=
  Exc (PyClass "OperationalError" [Exception]) "connection refused".

(** A user-defined error that is both a PermissionError and a ValueError. *)
Definition case_locked : exception :=
  Exc (PyClass "CaseLocked" [PermissionError; ValueError]) "Case is locked".

(** Collaborators over an empty session, with string requests and reports. *)
Definition create_answering (o : outcome (SalesCase string))
    : unit -> call unit (SalesCase string) :=
  fun _ => answers o.

Definition list_answering (o : outcome (list (SalesCase string)))
    : User -> option string -> option Z -> call unit (list (SalesCase string)) :=
  fun _ _ _ => answers o.

Definition lookup_answering (o : outcome (option (SalesCase string)))
    : Z -> call unit (option (SalesCase string)) :=
  fun _ => answers o.

Definition return_answering (o : outcome string)
    : Z -> string -> User -> call unit string :=
  fun _ _ _ => answers o.

End Sample.

(** * Properties *)

(** ** The exception classes *)

Lemma issubclass_refl (c : pyclass) : issubclass c c = true.
Proof.
  destruct c as [n bs]. cbn. rewrite String.eqb_refl. reflexivity.
Qed.

Lemma PermissionError_is_no_ValueError :
  issubclass PermissionError ValueError = false.
Proof. reflexivity. Qed.

Lemma HTTPException_is_no_ValueError (c : Z) (d : string) :
  isinstance (HTTPException c d) ValueError = false.
Proof. reflexivity. Qed.

Lemma HTTPException_is_no_PermissionError (c : Z) (d : string) :
  isinstance (HTTPException c d) PermissionError = false.
Proof. reflexivity. Qed.

(** ** try/except and sequencing *)

Section Calls.

Context {S A : Type}.
Implicit Types (body : call S A) (clauses : list (except_clause S A)).

Lemma bind_ret body (db : S) : (x <- body ;; ret x) db = body db.
Proof.
  unfold bind, ret. destruct (body db) as [[a | e] db']; reflexivity.
Qed.

Lemma try_except_returns body clauses db a db' :
  body db = (Returns a, db') ->
  try_except body clauses db = (Returns a, db').
Proof. intros H. unfold try_except. rewrite H. reflexivity. Qed.

Lemma try_except_raises body clauses db e db' :
  body db = (Raises e, db') ->
  try_except body clauses db = dispatch clauses e db'.
Proof. intros H. unfold try_except. rewrite H. reflexivity. Qed.

Lemma dispatch_hit c (h : exception -> call S A) clauses e :
  isinstance e c = true -> dispatch ((c, h) :: clauses) e = h e.
Proof. intros H. cbn [dispatch]. rewrite H. reflexivity. Qed.

Lemma dispatch_miss c (h : exception -> call S A) clauses e :
  isinstance e c = false ->
  dispatch ((c, h) :: clauses) e = dispatch clauses e.
Proof. intros H. cbn [dispatch]. rewrite H. reflexivity. Qed.

End Calls.

(** ** The handlers, case by case *)

Section HandlerLemmas.

Context {Session SalesCaseStatus : Type}.
Context {SalesCaseCreate SalesCaseReturnRequest SalesCaseReturnReport : Type}.
Variable create_sales_case :
  SalesCaseCreate -> call Session (SalesCase SalesCaseStatus).
Variable get_sales_cases :
  User -> option SalesCaseStatus -> option Z ->
  call Session (list (SalesCase SalesCaseStatus)).
Variable get_sales_case :
  Z -> call Session (option (SalesCase SalesCaseStatus)).
Variable process_sales_case_return :
  Z -> SalesCaseReturnRequest -> User -> call Session SalesCaseReturnReport.

Lemma create_returns case_create current_admin db new_case db' :
  create_sales_case case_create db = (Returns new_case, db') ->
  create_new_sales_case create_sales_case case_create current_admin db
  = (Returns new_case, db').
Proof.
  intros H. unfold create_new_sales_case.
  apply try_except_returns. rewrite bind_ret. exact H.
Qed.

Lemma create_ValueError case_create current_admin db e db' :
  create_sales_case case_create db = (Raises e, db') ->
  isinstance e ValueError = true ->
  create_new_sales_case create_sales_case case_create current_admin db
  = (Raises (HTTPException 400 (str e)), db').
Proof.
  intros H Hv. unfold create_new_sales_case.
  erewrite try_except_raises by (rewrite bind_ret; exact H).
  rewrite dispatch_hit by exact Hv. reflexivity.
Qed.

Lemma create_propagates case_create current_admin db e db' :
  create_sales_case case_create db = (Raises e, db') ->
  isinstance e ValueError = false ->
  create_new_sales_case create_sales_case case_create current_admin db
  = (Raises e, db').
Proof.
  intros H Hv. unfold create_new_sales_case.
  erewrite try_except_raises by (rewrite bind_ret; exact H).
  rewrite dispatch_miss by exact Hv. reflexivity.
Qed.

Lemma list_delegates status_filter rep_filter current_user db :
  read_sales_cases get_sales_cases status_filter rep_filter current_user db
  = get_sales_cases current_user status_filter rep_filter db.
Proof. unfold read_sales_cases. apply bind_ret. Qed.

Lemma read_propagates case_id current_user db e db' :
  get_sales_case case_id db = (Raises e, db') ->
  read_sales_case get_sales_case case_id current_user db = (Raises e, db').
Proof.
  intros H. unfold read_sales_case, bind. rewrite H. reflexivity.
Qed.

Lemma read_absent case_id current_user db db' :
  get_sales_case case_id db = (Returns None, db') ->
  read_sales_case get_sales_case case_id current_user db
  = (Raises (HTTPException 404 "Sales case not found"), db').
Proof.
  intros H. unfold read_sales_case, bind. rewrite H. reflexivity.
Qed.

Lemma read_present case_id current_user db db_case db' :
  get_sales_case case_id db = (Returns (Some db_case), db') ->
  read_sales_case get_sales_case case_id current_user db
  = (if UserRole_eqb (role current_user) SALES_REP
        && negb (sales_rep_id db_case =? id current_user)
     then Raises (HTTPException 403 "Not authorized to view this sales case")
     else Returns db_case, db').
Proof.
  intros H. unfold read_sales_case, bind. rewrite H.
  destruct (UserRole_eqb _ _ && _); reflexivity.
Qed.

Lemma return_returns case_id return_request current_user db report db' :
  process_sales_case_return case_id return_request current_user db
  = (Returns report, db') ->
  return_sales_case process_sales_case_return case_id return_request
    current_user db
  = (Returns report, db').
Proof.
  intros H. unfold return_sales_case.
  apply try_except_returns. rewrite bind_ret. exact H.
Qed.

Lemma return_ValueError case_id return_request current_user db e db' :
  process_sales_case_return case_id return_request current_user db
  = (Raises e, db') ->
  isinstance e ValueError = true ->
  return_sales_case process_sales_case_return case_id return_request
    current_user db
  = (Raises (HTTPException 400 (str e)), db').
Proof.
  intros H Hv. unfold return_sales_case.
  erewrite try_except_raises by (rewrite bind_ret; exact H).
  rewrite dispatch_hit by exact Hv. reflexivity.
Qed.

Lemma return_PermissionError case_id return_request current_user db e db' :
  process_sales_case_return case_id return_request current_user db
  = (Raises e, db') ->
  isinstance e ValueError = false ->
  isinstance e PermissionError = true ->
  return_sales_case process_sales_case_return case_id return_request
    current_user db
  = (Raises (HTTPException 403 (str e)), db').
Proof.
  intros H Hv Hp. unfold return_sales_case.
  erewrite try_except_raises by (rewrite bind_ret; exact H).
  rewrite dispatch_miss by exact Hv.
  rewrite dispatch_hit by exact Hp. reflexivity.
Qed.

Lemma return_propagates case_id return_request current_user db e db' :
  process_sales_case_return case_id return_request current_user db
  = (Raises e, db') ->
  isinstance e ValueError = false ->
  isinstance e PermissionError = false ->
  return_sales_case process_sales_case_return case_id return_request
    current_user db
  = (Raises e, db').
Proof.
  intros H Hv Hp. unfold return_sales_case.
  erewrite try_except_raises by (rewrite bind_ret; exact H).
  rewrite !dispatch_miss by assumption. reflexivity.
Qed.

End HandlerLemmas.

(** ** GET /sales-cases/{case_id} *)

Section ReadOne.

Context {Session SalesCaseStatus : Type}.
Variable get_sales_case :
  Z -> call Session (option (SalesCase SalesCaseStatus)).

(** C1.  When the lookup finds the case: a SALES_REP whose id differs from
    the case's [sales_rep_id] gets HTTP 403; an ADMIN, and a SALES_REP whose
    id equals the case's [sales_rep_id], get the case itself. *)
Theorem read_sales_case_authorization case_id current_user db db_case db' :
  get_sales_case case_id db = (Returns (Some db_case), db') ->
  (role current_user = SALES_REP ->
   sales_rep_id db_case <> id current_user ->
   read_sales_case get_sales_case case_id current_user db
   = (Raises (HTTPException 403 "Not authorized to view this sales case"),
      db'))
  /\ (role current_user = ADMIN
      \/ (role current_user = SALES_REP
          /\ sales_rep_id db_case = id current_user) ->
      read_sales_case get_sales_case case_id current_user db
      = (Returns db_case, db')).
Proof.
  intros Hfound. rewrite (read_present _ _ current_user _ _ _ Hfound).
  split.
  - intros Hrole Hother. rewrite Hrole. cbn [UserRole_eqb andb].
    apply Z.eqb_neq in Hother. rewrite Hother. reflexivity.
  - intros [Hadmin | [Hrole Hown]].
    + rewrite Hadmin. reflexivity.
    + rewrite Hrole, Hown, Z.eqb_refl. reflexivity.
Qed.

(** C2.  When the lookup returns None the handler raises HTTP 404 with the
    detail "Sales case not found", whoever calls. *)
Theorem read_sales_case_not_found case_id current_user db db' :
  get_sales_case case_id db = (Returns None, db') ->
  read_sales_case get_sales_case case_id current_user db
  = (Raises (HTTPException 404 "Sales case not found"), db').
Proof. apply read_absent. Qed.

(** C9.  The absence check comes before the ownership check: a lookup that
    returns None ends in HTTP 404 and in no HTTP 403, for every caller; and
    when the lookup returns, the handler raises an HTTP 403 only if the
    lookup found a case, the caller is a SALES_REP and the case is not the
    caller's. *)
Theorem read_sales_case_absence_first case_id current_user db db' :
  (get_sales_case case_id db = (Returns None, db') ->
   read_sales_case get_sales_case case_id current_user db
   = (Raises (HTTPException 404 "Sales case not found"), db')
   /\ forall d,
        fst (read_sales_case get_sales_case case_id current_user db)
        <> Raises (HTTPException 403 d))
  /\ (forall found d db'',
        get_sales_case case_id db = (Returns found, db') ->
        read_sales_case get_sales_case case_id current_user db
        = (Raises (HTTPException 403 d), db'') ->
        exists db_case,
          found = Some db_case
          /\ role current_user = SALES_REP
          /\ sales_rep_id db_case <> id current_user).
Proof.
  split.
  - intros Habsent.
    rewrite (read_absent _ _ current_user _ _ Habsent).
    split; [reflexivity | intros d; cbn; discriminate].
  - intros [db_case | ] d db'' Hlookup Hraised.
    + rewrite (read_present _ _ current_user _ _ _ Hlookup) in Hraised.
      exists db_case. split; [reflexivity | ].
      destruct (role current_user); cbn in Hraised; [discriminate | ].
      split; [reflexivity | ].
      destruct (Z.eqb_spec (sales_rep_id db_case) (id current_user))
        as [_ | Hne]; [discriminate | exact Hne].
    + rewrite (read_absent _ _ current_user _ _ Hlookup) in Hraised.
      discriminate.
Qed.

End ReadOne.

Lemma read_sales_case_authorization_witness :
  read_sales_case Sample.lookup 11 Sample.rep7 Sample.table
  = (Raises (HTTPException 403 "Not authorized to view this sales case"),
     Sample.table)
  /\ read_sales_case Sample.lookup 10 Sample.rep7 Sample.table
     = (Returns Sample.case10, Sample.table)
  /\ read_sales_case Sample.lookup 11 Sample.admin Sample.table
     = (Returns Sample.case11, Sample.table).
Proof.
  split; [ | split ].
  - apply (proj1 (read_sales_case_authorization Sample.lookup 11 Sample.rep7
                    Sample.table Sample.case11 Sample.table eq_refl)).
    + reflexivity.
    + cbn. lia.
  - apply (proj2 (read_sales_case_authorization Sample.lookup 10 Sample.rep7
                    Sample.table Sample.case10 Sample.table eq_refl)).
    right. split; reflexivity.
  - apply (proj2 (read_sales_case_authorization Sample.lookup 11 Sample.admin
                    Sample.table Sample.case11 Sample.table eq_refl)).
    left. reflexivity.
Defined.

Lemma read_sales_case_not_found_witness :
  read_sales_case Sample.lookup 99 Sample.rep7 Sample.table
  = (Raises (HTTPException 404 "Sales case not found"), Sample.table).
Proof.
  apply (read_sales_case_not_found Sample.lookup 99 Sample.rep7 Sample.table
           Sample.table).
  reflexivity.
Defined.

Lemma read_sales_case_absence_first_witness :
  (read_sales_case Sample.lookup 99 Sample.rep7 Sample.table
   = (Raises (HTTPException 404 "Sales case not found"), Sample.table)
   /\ forall d,
        fst (read_sales_case Sample.lookup 99 Sample.rep7 Sample.table)
        <> Raises (HTTPException 403 d))
  /\ exists db_case,
       Some Sample.case11 = Some db_case
       /\ role Sample.rep7 = SALES_REP
       /\ sales_rep_id db_case <> id Sample.rep7.
Proof.
  split.
  - apply (proj1 (read_sales_case_absence_first Sample.lookup 99 Sample.rep7
                    Sample.table Sample.table)).
    reflexivity.
  - apply (proj2 (read_sales_case_absence_first Sample.lookup 11 Sample.rep7
                    Sample.table Sample.table)
             (Some Sample.case11)
             "Not authorized to view this sales case" Sample.table).
    + reflexivity.
    + reflexivity.
Defined.

(** ** POST /sales-cases/{case_id}/return *)

Section Return.

Context {Session SalesCaseReturnRequest SalesCaseReturnReport : Type}.
Variable process_sales_case_return :
  Z -> SalesCaseReturnRequest -> User -> call Session SalesCaseReturnReport.

(** C3.  A ValueError raised by [crud.process_sales_case_return] becomes
    HTTP 400 with the error's message as detail; a PermissionError becomes
    HTTP 403 with the error's message as detail; a returned report is
    returned as it is.  The two clauses are stated for an exception of the
    class itself and for an instance of any subclass; a subclass of
    PermissionError is handled by the second clause when the first one,
    which is tried before it, does not match. *)
Theorem return_sales_case_translation case_id return_request current_user
    db db' :
  (forall m,
     process_sales_case_return case_id return_request current_user db
     = (Raises (Exc ValueError m), db') ->
     return_sales_case process_sales_case_return case_id return_request
       current_user db
     = (Raises (HTTPException 400 m), db'))
  /\ (forall m,
        process_sales_case_return case_id return_request current_user db
        = (Raises (Exc PermissionError m), db') ->
        return_sales_case process_sales_case_return case_id return_request
          current_user db
        = (Raises (HTTPException 403 m), db'))
  /\ (forall e,
        process_sales_case_return case_id return_request current_user db
        = (Raises e, db') ->
        isinstance e ValueError = true ->
        return_sales_case process_sales_case_return case_id return_request
          current_user db
        = (Raises (HTTPException 400 (str e)), db'))
  /\ (forall e,
        process_sales_case_return case_id return_request current_user db
        = (Raises e, db') ->
        isinstance e PermissionError = true ->
        isinstance e ValueError = false ->
        return_sales_case process_sales_case_return case_id return_request
          current_user db
        = (Raises (HTTPException 403 (str e)), db'))
  /\ (forall report,
        process_sales_case_return case_id return_request current_user db
        = (Returns report, db') ->
        return_sales_case process_sales_case_return case_id return_request
          current_user db
        = (Returns report, db')).
Proof.
  repeat split.
  - intros m H. apply (return_ValueError _ _ _ _ _ _ _ H). reflexivity.
  - intros m H. apply (return_PermissionError _ _ _ _ _ _ _ H); reflexivity.
  - intros e H Hv. apply (return_ValueError _ _ _ _ _ _ _ H Hv).
  - intros e H Hp Hv. apply (return_PermissionError _ _ _ _ _ _ _ H Hv Hp).
  - intros report H. apply return_returns. exact H.
Qed.

(** C10.  The return handler has no existence check of its own: its outcome
    is a function of the outcome of [crud.process_sales_case_return] alone
    (the report; HTTP 400 for a ValueError; HTTP 403 for a PermissionError;
    any other exception as it came), and an HTTP 404 leaves the handler only
    when the CRUD call itself raised that very exception. *)
Theorem return_sales_case_issues_no_404 case_id return_request current_user
    db :
  return_sales_case process_sales_case_return case_id return_request
    current_user db
  = match process_sales_case_return case_id return_request current_user db
    with
    | (Returns report, db') => (Returns report, db')
    | (Raises e, db') =>
        (Raises (if isinstance e ValueError
                 then HTTPException 400 (str e)
                 else if isinstance e PermissionError
                      then HTTPException 403 (str e)
                      else e),
         db')
    end
  /\ (forall d db',
        return_sales_case process_sales_case_return case_id return_request
          current_user db
        = (Raises (HTTPException 404 d), db') ->
        process_sales_case_return case_id return_request current_user db
        = (Raises (HTTPException 404 d), db')).
Proof.
  destruct (process_sales_case_return case_id return_request current_user db)
    as [[report | e] db1] eqn:Hcrud.
  - rewrite (return_returns _ _ _ _ _ _ _ Hcrud).
    split; [reflexivity | discriminate].
  - destruct (isinstance e ValueError) eqn:Hv.
    + rewrite (return_ValueError _ _ _ _ _ _ _ Hcrud Hv).
      split; [reflexivity | discriminate].
    + destruct (isinstance e PermissionError) eqn:Hp.
      * rewrite (return_PermissionError _ _ _ _ _ _ _ Hcrud Hv Hp).
        split; [reflexivity | discriminate].
      * rewrite (return_propagates _ _ _ _ _ _ _ Hcrud Hv Hp).
        split; [reflexivity | ].
        intros d db' Heq. exact Heq.
Qed.

End Return.

Lemma return_sales_case_translation_witness :
  return_sales_case (Sample.return_answering (Raises Sample.out_of_stock))
    10 "all sold" Sample.rep7 tt
  = (Raises (HTTPException 400 "Insufficient stock"), tt)
  /\ return_sales_case (Sample.return_answering (Raises Sample.not_yours))
       11 "all sold" Sample.rep7 tt
     = (Raises (HTTPException 403 "Not your sales case"), tt)
  /\ return_sales_case (Sample.return_answering (Returns "report"))
       10 "all sold" Sample.rep7 tt
     = (Returns "report", tt).
Proof.
  split; [ | split ].
  - destruct (return_sales_case_translation
                (Sample.return_answering (Raises Sample.out_of_stock))
                10 "all sold" Sample.rep7 tt tt) as (_ & _ & Hv & _).
    apply (Hv Sample.out_of_stock); reflexivity.
  - destruct (return_sales_case_translation
                (Sample.return_answering (Raises Sample.not_yours))
                11 "all sold" Sample.rep7 tt tt) as (_ & Hp & _).
    apply Hp. reflexivity.
  - destruct (return_sales_case_translation
                (Sample.return_answering (Returns "report"))
                10 "all sold" Sample.rep7 tt tt) as (_ & _ & _ & _ & Hr).
    apply Hr. reflexivity.
Defined.

Lemma return_sales_case_issues_no_404_witness :
  return_sales_case
    (Sample.return_answering (Raises (Exc ValueError "Sales case not found")))
    99 "all sold" Sample.rep7 tt
  = (Raises (HTTPException 400 "Sales case not found"), tt).
Proof.
  exact (proj1 (return_sales_case_issues_no_404
                  (Sample.return_answering
                     (Raises (Exc ValueError "Sales case not found")))
                  99 "all sold" Sample.rep7 tt)).
Defined.

(** ** POST /sales-cases/ and the router as a whole *)

Section Router.

Context {Session SalesCaseStatus : Type}.
Context {SalesCaseCreate SalesCaseReturnRequest SalesCaseReturnReport : Type}.
Variable create_sales_case :
  SalesCaseCreate -> call Session (SalesCase SalesCaseStatus).
Variable get_sales_cases :
  User -> option SalesCaseStatus -> option Z ->
  call Session (list (SalesCase SalesCaseStatus)).
Variable get_sales_case :
  Z -> call Session (option (SalesCase SalesCaseStatus)).
Variable process_sales_case_return :
  Z -> SalesCaseReturnRequest -> User -> call Session SalesCaseReturnReport.

(** C5.  On POST /sales-cases/: a ValueError raised by
    [crud.create_sales_case] becomes HTTP 400 with the error's message as
    detail; a created case is returned as it is, and the route answers it
    with status 201.  The handler never reads [current_admin], so this holds
    for the admin the dependency lets through. *)
Theorem create_new_sales_case_outcomes case_create current_admin db db' :
  (forall e,
     create_sales_case case_create db = (Raises e, db') ->
     isinstance e ValueError = true ->
     create_new_sales_case create_sales_case case_create current_admin db
     = (Raises (HTTPException 400 (str e)), db')
     /\ respond (B := SalesCase SalesCaseStatus) create_route
          (Raises (HTTPException 400 (str e)))
        = ErrorResponse 400 (str e))
  /\ (forall new_case,
        create_sales_case case_create db = (Returns new_case, db') ->
        create_new_sales_case create_sales_case case_create current_admin db
        = (Returns new_case, db')
        /\ respond create_route (Returns new_case) = Response 201 new_case).
Proof.
  split.
  - intros e H Hv. split; [ | reflexivity].
    apply (create_ValueError _ _ _ _ _ _ H Hv).
  - intros new_case H. split; [ | reflexivity].
    apply create_returns. exact H.
Qed.

(** C4, amended.  The translation is per endpoint.  The create and the
    return endpoint turn a ValueError into HTTP 400 with its message as
    detail.  Only the return endpoint turns a PermissionError into HTTP 403
    with its message as detail; the create endpoint lets it go on as it
    came, and the two GET endpoints let every exception of the CRUD call go
    on as it came. *)
Theorem translation_per_endpoint :
  (forall case_create current_admin db e db',
     create_sales_case case_create db = (Raises e, db') ->
     isinstance e ValueError = true ->
     create_new_sales_case create_sales_case case_create current_admin db
     = (Raises (HTTPException 400 (str e)), db'))
  /\ (forall case_id return_request current_user db e db',
        process_sales_case_return case_id return_request current_user db
        = (Raises e, db') ->
        isinstance e ValueError = true ->
        return_sales_case process_sales_case_return case_id return_request
          current_user db
        = (Raises (HTTPException 400 (str e)), db'))
  /\ (forall case_id return_request current_user db e db',
        process_sales_case_return case_id return_request current_user db
        = (Raises e, db') ->
        isinstance e PermissionError = true ->
        isinstance e ValueError = false ->
        return_sales_case process_sales_case_return case_id return_request
          current_user db
        = (Raises (HTTPException 403 (str e)), db'))
  /\ (forall case_create current_admin db m db',
        create_sales_case case_create db
        = (Raises (Exc PermissionError m), db') ->
        create_new_sales_case create_sales_case case_create current_admin db
        = (Raises (Exc PermissionError m), db'))
  /\ (forall status_filter rep_filter current_user db e db',
        get_sales_cases current_user status_filter rep_filter db
        = (Raises e, db') ->
        read_sales_cases get_sales_cases status_filter rep_filter
          current_user db
        = (Raises e, db'))
  /\ (forall case_id current_user db e db',
        get_sales_case case_id db = (Raises e, db') ->
        read_sales_case get_sales_case case_id current_user db
        = (Raises e, db')).
Proof.
  repeat split.
  - intros * H Hv. apply (create_ValueError _ _ _ _ _ _ H Hv).
  - intros * H Hv. apply (return_ValueError _ _ _ _ _ _ _ H Hv).
  - intros * H Hp Hv. apply (return_PermissionError _ _ _ _ _ _ _ H Hv Hp).
  - intros * H. apply (create_propagates _ _ _ _ _ _ H). reflexivity.
  - intros * H. rewrite list_delegates. exact H.
  - intros * H. apply read_propagates. exact H.
Qed.

(** C6.  An exception of a CRUD call that no [except] clause of the handler
    matches leaves the handler as it came: in the create endpoint one that
    is no ValueError, in the return endpoint one that is neither a
    ValueError nor a PermissionError, in the two GET endpoints any. *)
Theorem unmatched_exceptions_propagate :
  (forall case_create current_admin db e db',
     create_sales_case case_create db = (Raises e, db') ->
     isinstance e ValueError = false ->
     create_new_sales_case create_sales_case case_create current_admin db
     = (Raises e, db'))
  /\ (forall case_id return_request current_user db e db',
        process_sales_case_return case_id return_request current_user db
        = (Raises e, db') ->
        isinstance e ValueError = false ->
        isinstance e PermissionError = false ->
        return_sales_case process_sales_case_return case_id return_request
          current_user db
        = (Raises e, db'))
  /\ (forall status_filter rep_filter current_user db e db',
        get_sales_cases current_user status_filter rep_filter db
        = (Raises e, db') ->
        read_sales_cases get_sales_cases status_filter rep_filter
          current_user db
        = (Raises e, db'))
  /\ (forall case_id current_user db e db',
        get_sales_case case_id db = (Raises e, db') ->
        read_sales_case get_sales_case case_id current_user db
        = (Raises e, db')).
Proof.
  repeat split.
  - intros * H Hv. apply (create_propagates _ _ _ _ _ _ H Hv).
  - intros * H Hv Hp. apply (return_propagates _ _ _ _ _ _ _ H Hv Hp).
  - intros * H. rewrite list_delegates. exact H.
  - intros * H. apply read_propagates. exact H.
Qed.

(** C7.  GET /sales-cases/ is the call
    [crud.get_sales_cases(db, current_user, status, sales_rep_id)] and
    nothing more: same caller, same two filters, and the call's outcome
    (the list, or the exception) and final state are the handler's. *)
Theorem read_sales_cases_delegates status_filter rep_filter current_user db :
  read_sales_cases get_sales_cases status_filter rep_filter current_user db
  = get_sales_cases current_user status_filter rep_filter db.
Proof. apply list_delegates. Qed.

End Router.

Lemma create_new_sales_case_outcomes_witness :
  (create_new_sales_case (Sample.create_answering (Raises Sample.out_of_stock))
     tt Sample.admin tt
   = (Raises (HTTPException 400 "Insufficient stock"), tt)
   /\ respond (B := SalesCase string) create_route
        (Raises (HTTPException 400 "Insufficient stock"))
      = ErrorResponse 400 "Insufficient stock")
  /\ (create_new_sales_case (Sample.create_answering (Returns Sample.case10))
        tt Sample.admin tt
      = (Returns Sample.case10, tt)
      /\ respond create_route (Returns Sample.case10)
         = Response 201 Sample.case10).
Proof.
  split.
  - apply (proj1 (create_new_sales_case_outcomes
                    (Sample.create_answering (Raises Sample.out_of_stock))
                    tt Sample.admin tt tt) Sample.out_of_stock);
      reflexivity.
  - apply (proj2 (create_new_sales_case_outcomes
                    (Sample.create_answering (Returns Sample.case10))
                    tt Sample.admin tt tt) Sample.case10).
    reflexivity.
Defined.

(** The create endpoint hands a PermissionError on instead of answering
    403, and the list endpoint hands a ValueError on instead of answering
    400: the translation does not hold for every endpoint. *)
Lemma create_hands_PermissionError_on :
  create_new_sales_case (Sample.create_answering (Raises Sample.not_yours))
    tt Sample.admin tt
  = (Raises Sample.not_yours, tt)
  /\ respond create_route
       (fst (create_new_sales_case
               (Sample.create_answering (Raises Sample.not_yours))
               tt Sample.admin tt))
     = Unhandled Sample.not_yours
  /\ read_sales_cases (Sample.list_answering (Raises Sample.out_of_stock))
       None None Sample.admin tt
     = (Raises Sample.out_of_stock, tt)
  /\ ~ (forall (crud_create : unit -> call unit (SalesCase string)) e,
          crud_create tt tt = (Raises e, tt) ->
          isinstance e PermissionError = true ->
          exists d,
            create_new_sales_case crud_create tt Sample.admin tt
            = (Raises (HTTPException 403 d), tt)).
Proof.
  repeat split.
  intros Hclaim.
  destruct (Hclaim (Sample.create_answering (Raises Sample.not_yours))
              Sample.not_yours eq_refl eq_refl) as [d Hd].
  discriminate Hd.
Qed.

Lemma translation_per_endpoint_witness :
  create_new_sales_case (Sample.create_answering (Raises Sample.out_of_stock))
    tt Sample.admin tt
  = (Raises (HTTPException 400 "Insufficient stock"), tt)
  /\ return_sales_case (Sample.return_answering (Raises Sample.not_yours))
       11 "all sold" Sample.rep7 tt
     = (Raises (HTTPException 403 "Not your sales case"), tt)
  /\ create_new_sales_case (Sample.create_answering (Raises Sample.not_yours))
       tt Sample.admin tt
     = (Raises Sample.not_yours, tt).
Proof.
  destruct (translation_per_endpoint
              (Sample.create_answering (Raises Sample.out_of_stock))
              (Sample.list_answering (Returns []))
              (Sample.lookup_answering (Returns None))
              (Sample.return_answering (Raises Sample.not_yours)))
    as (Hcreate & _ & Hreturn & _).
  destruct (translation_per_endpoint
              (Sample.create_answering (Raises Sample.not_yours))
              (Sample.list_answering (Returns []))
              (Sample.lookup_answering (Returns None))
              (Sample.return_answering (Raises Sample.not_yours)))
    as (_ & _ & _ & Hon & _).
  split; [ | split ].
  - apply (Hcreate tt Sample.admin tt Sample.out_of_stock tt); reflexivity.
  - apply (Hreturn 11 "all sold" Sample.rep7 tt Sample.not_yours tt);
      reflexivity.
  - apply (Hon tt Sample.admin tt "Not your sales case" tt). reflexivity.
Defined.

Lemma unmatched_exceptions_propagate_witness :
  create_new_sales_case (Sample.create_answering (Raises Sample.db_down))
    tt Sample.admin tt
  = (Raises Sample.db_down, tt)
  /\ return_sales_case (Sample.return_answering (Raises Sample.db_down))
       10 "all sold" Sample.rep7 tt
     = (Raises Sample.db_down, tt)
  /\ read_sales_cases (Sample.list_answering (Raises Sample.db_down))
       None None Sample.rep7 tt
     = (Raises Sample.db_down, tt)
  /\ read_sales_case (Sample.lookup_answering (Raises Sample.db_down))
       10 Sample.rep7 tt
     = (Raises Sample.db_down, tt).
Proof.
  destruct (unmatched_exceptions_propagate
              (Sample.create_answering (Raises Sample.db_down))
              (Sample.list_answering (Raises Sample.db_down))
              (Sample.lookup_answering (Raises Sample.db_down))
              (Sample.return_answering (Raises Sample.db_down)))
    as (Hcreate & Hreturn & Hlist & Hread).
  split; [ | split; [ | split ] ].
  - apply (Hcreate tt Sample.admin tt Sample.db_down tt); reflexivity.
  - apply (Hreturn 10 "all sold" Sample.rep7 tt Sample.db_down tt);
      reflexivity.
  - apply (Hlist None None Sample.rep7 tt Sample.db_down tt). reflexivity.
  - apply (Hread 10 Sample.rep7 tt Sample.db_down tt). reflexivity.
Defined.

(** ** GET /sales-cases/ over the listing query *)

Lemma NoDup_map_injective {A B : Type} (f : A -> B) (l : list A) (x y : A) :
  NoDup (map f l) -> In x l -> In y l -> f x = f y -> x = y.
Proof.
  induction l as [ | a l IH]; cbn; intros Hnd Hx Hy Hf; [contradiction | ].
  inversion Hnd as [ | ? ? Hfresh Hrest]; subst.
  destruct Hx as [-> | Hx], Hy as [-> | Hy].
  - reflexivity.
  - exfalso. apply Hfresh. rewrite Hf. apply in_map. exact Hy.
  - exfalso. apply Hfresh. rewrite <- Hf. apply in_map. exact Hx.
  - apply IH; assumption.
Qed.

Section Listing.

Context {SalesCaseStatus : Type}.
Variable status_eqb : SalesCaseStatus -> SalesCaseStatus -> bool.

Lemma passes_rep_filter status_filter (r : Z) (c : SalesCase SalesCaseStatus) :
  passes_filters status_eqb status_filter (Some r) c = true ->
  sales_rep_id c = r.
Proof.
  unfold passes_filters. intros H.
  apply andb_true_iff in H. destruct H as [_ H].
  apply Z.eqb_eq. exact H.
Qed.

(** C8.  With the listing query of the CRUD layer as the spec describes it,
    what GET /sales-cases/ returns to a SALES_REP holds only cases whose
    [sales_rep_id] is the caller's id, whatever the filters; and, case ids
    being unique in the table, the id of no case of another rep is among the
    ids returned. *)
Theorem sales_rep_lists_own_cases_only status_filter rep_filter current_user
    (db : list (SalesCase SalesCaseStatus)) :
  role current_user = SALES_REP ->
  exists cases,
    read_sales_cases (crud_get_sales_cases status_eqb) status_filter
      rep_filter current_user db
    = (Returns cases, db)
    /\ Forall (fun c => sales_rep_id c = id current_user) cases
    /\ (NoDup (map case_id db) ->
        forall other,
          In other db ->
          sales_rep_id other <> id current_user ->
          ~ In (case_id other) (map case_id cases)).
Proof.
  intros Hrole.
  exists (filter (passes_filters status_eqb status_filter
                    (Some (id current_user))) db).
  split; [ | split ].
  - rewrite list_delegates. unfold crud_get_sales_cases.
    rewrite Hrole. reflexivity.
  - apply Forall_forall. intros c Hin.
    apply filter_In in Hin. destruct Hin as [_ Hpass].
    apply (passes_rep_filter _ _ _ Hpass).
  - intros Hkeys other Hother Hforeign Hlisted.
    apply in_map_iff in Hlisted. destruct Hlisted as (c & Hid & Hin).
    apply filter_In in Hin. destruct Hin as [Hc Hpass].
    apply Hforeign.
    rewrite <- (NoDup_map_injective case_id db c other Hkeys Hc Hother Hid).
    apply (passes_rep_filter _ _ _ Hpass).
Qed.

End Listing.

Lemma sample_table_keys : NoDup (map case_id Sample.table).
Proof.
  cbn. repeat constructor; cbn; intuition lia.
Defined.

Lemma sales_rep_lists_own_cases_only_witness :
  role Sample.rep7 = SALES_REP
  /\ NoDup (map case_id Sample.table)
  /\ exists cases,
       read_sales_cases (crud_get_sales_cases String.eqb) None (Some 8)
         Sample.rep7 Sample.table
       = (Returns cases, Sample.table)
       /\ Forall (fun c => sales_rep_id c = id Sample.rep7) cases
       /\ ~ In (case_id Sample.case11) (map case_id cases).
Proof.
  split; [reflexivity | ].
  split; [exact sample_table_keys | ].
  destruct (sales_rep_lists_own_cases_only String.eqb None (Some 8)
              Sample.rep7 Sample.table eq_refl)
    as (cases & Hlist & Hown & Hids).
  exists cases. split; [exact Hlist | ]. split; [exact Hown | ].
  apply (Hids sample_table_keys Sample.case11).
  - right. left. reflexivity.
  - cbn. lia.
Defined.

(** * Further properties of the handlers *)

(** ** Each handler as a function of its one CRUD call *)

Section Outcomes.

Context {Session SalesCaseStatus : Type}.
Context {SalesCaseCreate SalesCaseReturnRequest SalesCaseReturnReport : Type}.
Variable create_sales_case :
  SalesCaseCreate -> call Session (SalesCase SalesCaseStatus).
Variable get_sales_cases :
  User -> option SalesCaseStatus -> option Z ->
  call Session (list (SalesCase SalesCaseStatus)).
Variable get_sales_case :
  Z -> call Session (option (SalesCase SalesCaseStatus)).
Variable process_sales_case_return :
  Z -> SalesCaseReturnRequest -> User -> call Session SalesCaseReturnReport.

Lemma create_outcome case_create current_admin db :
  create_new_sales_case create_sales_case case_create current_admin db
  = match create_sales_case case_create db with
    | (Returns new_case, db') => (Returns new_case, db')
    | (Raises e, db') =>
        (Raises (if isinstance e ValueError
                 then HTTPException 400 (str e)
                 else e),
         db')
    end.
Proof.
  destruct (create_sales_case case_create db) as [[new_case | e] db'] eqn:H.
  - apply create_returns. exact H.
  - destruct (isinstance e ValueError) eqn:Hv.
    + apply (create_ValueError _ _ _ _ _ _ H Hv).
    + apply (create_propagates _ _ _ _ _ _ H Hv).
Qed.

Lemma read_outcome case_id current_user db :
  read_sales_case get_sales_case case_id current_user db
  = match get_sales_case case_id db with
    | (Returns (Some db_case), db') =>
        (if UserRole_eqb (role current_user) SALES_REP
            && negb (sales_rep_id db_case =? id current_user)
         then Raises
                (HTTPException 403 "Not authorized to view this sales case")
         else Returns db_case,
         db')
    | (Returns None, db') =>
        (Raises (HTTPException 404 "Sales case not found"), db')
    | (Raises e, db') => (Raises e, db')
    end.
Proof.
  destruct (get_sales_case case_id db) as [[[db_case | ] | e] db'] eqn:H.
  - apply read_present. exact H.
  - apply read_absent. exact H.
  - apply read_propagates. exact H.
Qed.

Lemma return_outcome case_id return_request current_user db :
  return_sales_case process_sales_case_return case_id return_request
    current_user db
  = match process_sales_case_return case_id return_request current_user db
    with
    | (Returns report, db') => (Returns report, db')
    | (Raises e, db') =>
        (Raises (if isinstance e ValueError
                 then HTTPException 400 (str e)
                 else if isinstance e PermissionError
                      then HTTPException 403 (str e)
                      else e),
         db')
    end.
Proof.
  destruct (process_sales_case_return case_id return_request current_user db)
    as [[report | e] db'] eqn:H.
  - apply return_returns. exact H.
  - destruct (isinstance e ValueError) eqn:Hv.
    + apply (return_ValueError _ _ _ _ _ _ _ H Hv).
    + destruct (isinstance e PermissionError) eqn:Hp.
      * apply (return_PermissionError _ _ _ _ _ _ _ H Hv Hp).
      * apply (return_propagates _ _ _ _ _ _ _ H Hv Hp).
Qed.

(** What a returned case tells about the lookup and the caller. *)
Lemma read_returns_inv case_id current_user db db_case db' :
  read_sales_case get_sales_case case_id current_user db
  = (Returns db_case, db') ->
  get_sales_case case_id db = (Returns (Some db_case), db')
  /\ (role current_user = ADMIN
      \/ sales_rep_id db_case = id current_user).
Proof.
  rewrite read_outcome.
  destruct (get_sales_case case_id db) as [[[found | ] | e] db1];
    [ | discriminate | discriminate].
  destruct (role current_user); cbn [UserRole_eqb andb].
  - intros H. injection H as -> ->. split; [reflexivity | left; reflexivity].
  - destruct (Z.eqb_spec (sales_rep_id found) (id current_user)) as [Hown | _];
      cbn [negb]; [ | discriminate].
    intros H. injection H as <- ->. split; [reflexivity | right; exact Hown].
Qed.

End Outcomes.

(** ** GET /sales-cases/{case_id}: what an answer tells *)

Section ReadOneAnswers.

Context {Session SalesCaseStatus : Type}.
Variable get_sales_case :
  Z -> call Session (option (SalesCase SalesCaseStatus)).

(** X1.  A case the handler returns is the case the lookup found, and the
    caller is an ADMIN or the rep the case belongs to: no other caller is
    ever handed a case. *)
Theorem read_sales_case_returns_only_authorized case_id current_user db
    db_case db' :
  read_sales_case get_sales_case case_id current_user db
  = (Returns db_case, db') ->
  get_sales_case case_id db = (Returns (Some db_case), db')
  /\ (role current_user = ADMIN
      \/ sales_rep_id db_case = id current_user).
Proof. apply read_returns_inv. Qed.

(** X2.  When the lookup returns, the handler raises nothing but its own two
    errors: HTTP 404 "Sales case not found", and then the lookup found
    nothing, or HTTP 403 "Not authorized to view this sales case", and then
    the lookup found a case of another rep and the caller is a SALES_REP. *)
Theorem read_sales_case_own_errors case_id current_user db found db1 e db' :
  get_sales_case case_id db = (Returns found, db1) ->
  read_sales_case get_sales_case case_id current_user db = (Raises e, db') ->
  db' = db1
  /\ ((found = None /\ e = HTTPException 404 "Sales case not found")
      \/ (exists db_case,
            found = Some db_case
            /\ e = HTTPException 403 "Not authorized to view this sales case"
            /\ role current_user = SALES_REP
            /\ sales_rep_id db_case <> id current_user)).
Proof.
  intros Hlookup. rewrite read_outcome, Hlookup.
  destruct found as [db_case | ].
  - destruct (role current_user); cbn [UserRole_eqb andb]; [discriminate | ].
    destruct (Z.eqb_spec (sales_rep_id db_case) (id current_user))
      as [_ | Hother]; cbn [negb]; [discriminate | ].
    intros H. injection H as <- <-.
    split; [reflexivity | right].
    exists db_case. repeat split. exact Hother.
  - intros H. injection H as <- <-.
    split; [reflexivity | left; split; reflexivity].
Qed.

(** X3.  Sales reps are kept apart: a case the handler returns to one
    SALES_REP is refused with HTTP 403 to every SALES_REP with another
    id. *)
Theorem read_sales_case_reps_are_isolated case_id rep other_rep db db_case
    db' :
  role rep = SALES_REP ->
  role other_rep = SALES_REP ->
  id other_rep <> id rep ->
  read_sales_case get_sales_case case_id rep db = (Returns db_case, db') ->
  read_sales_case get_sales_case case_id other_rep db
  = (Raises (HTTPException 403 "Not authorized to view this sales case"),
     db').
Proof.
  intros Hrep Hother Hids Hread.
  destruct (read_returns_inv _ _ _ _ _ _ Hread) as [Hlookup [Hadmin | Hown]].
  - rewrite Hrep in Hadmin. discriminate.
  - rewrite (read_present _ _ other_rep _ _ _ Hlookup), Hother, Hown.
    cbn [UserRole_eqb andb].
    destruct (Z.eqb_spec (id rep) (id other_rep)) as [Heq | _].
    + exfalso. apply Hids. symmetry. exact Heq.
    + reflexivity.
Qed.

(** X4.  An ADMIN is handed every case that any caller is handed. *)
Theorem read_sales_case_admin_reads_all case_id current_user some_admin db
    db_case db' :
  role some_admin = ADMIN ->
  read_sales_case get_sales_case case_id current_user db
  = (Returns db_case, db') ->
  read_sales_case get_sales_case case_id some_admin db
  = (Returns db_case, db').
Proof.
  intros Hadmin Hread.
  destruct (read_returns_inv _ _ _ _ _ _ Hread) as [Hlookup _].
  rewrite (read_present _ _ some_admin _ _ _ Hlookup), Hadmin.
  reflexivity.
Qed.

End ReadOneAnswers.

Lemma read_sales_case_returns_only_authorized_witness :
  Sample.lookup 10 Sample.table = (Returns (Some Sample.case10), Sample.table)
  /\ (role Sample.rep7 = ADMIN
      \/ sales_rep_id Sample.case10 = id Sample.rep7).
Proof.
  apply (read_sales_case_returns_only_authorized Sample.lookup 10 Sample.rep7
           Sample.table Sample.case10 Sample.table).
  reflexivity.
Defined.

Lemma read_sales_case_own_errors_witness :
  Sample.table = Sample.table
  /\ ((Some Sample.case11 = None
       /\ HTTPException 403 "Not authorized to view this sales case"
          = HTTPException 404 "Sales case not found")
      \/ (exists db_case,
            Some Sample.case11 = Some db_case
            /\ HTTPException 403 "Not authorized to view this sales case"
               = HTTPException 403 "Not authorized to view this sales case"
            /\ role Sample.rep7 = SALES_REP
            /\ sales_rep_id db_case <> id Sample.rep7)).
Proof.
  apply (read_sales_case_own_errors Sample.lookup 11 Sample.rep7 Sample.table
           (Some Sample.case11) Sample.table
           (HTTPException 403 "Not authorized to view this sales case")
           Sample.table).
  - reflexivity.
  - reflexivity.
Defined.

Lemma read_sales_case_reps_are_isolated_witness :
  read_sales_case Sample.lookup 10 (mkUser 8 SALES_REP) Sample.table
  = (Raises (HTTPException 403 "Not authorized to view this sales case"),
     Sample.table).
Proof.
  apply (read_sales_case_reps_are_isolated Sample.lookup 10 Sample.rep7
           (mkUser 8 SALES_REP) Sample.table Sample.case10 Sample.table).
  - reflexivity.
  - reflexivity.
  - cbn. lia.
  - reflexivity.
Defined.

Lemma read_sales_case_admin_reads_all_witness :
  read_sales_case Sample.lookup 10 Sample.admin Sample.table
  = (Returns Sample.case10, Sample.table).
Proof.
  apply (read_sales_case_admin_reads_all Sample.lookup 10 Sample.rep7
           Sample.admin Sample.table Sample.case10 Sample.table).
  - reflexivity.
  - reflexivity.
Defined.

(** ** What the handlers add to the CRUD call, and what they never do *)

Section Delegation.

Context {Session SalesCaseStatus : Type}.
Context {SalesCaseCreate SalesCaseReturnRequest SalesCaseReturnReport : Type}.
Variable create_sales_case :
  SalesCaseCreate -> call Session (SalesCase SalesCaseStatus).
Variable get_sales_cases :
  User -> option SalesCaseStatus -> option Z ->
  call Session (list (SalesCase SalesCaseStatus)).
Variable get_sales_case :
  Z -> call Session (option (SalesCase SalesCaseStatus)).
Variable process_sales_case_return :
  Z -> SalesCaseReturnRequest -> User -> call Session SalesCaseReturnReport.

(** X5.  The create, list and return handlers never turn a failure into a
    success and never change a result: what such a handler returns is what
    its CRUD call returned. *)
Theorem handlers_return_what_crud_returned :
  (forall case_create current_admin db new_case db',
     create_new_sales_case create_sales_case case_create current_admin db
     = (Returns new_case, db') ->
     create_sales_case case_create db = (Returns new_case, db'))
  /\ (forall status_filter rep_filter current_user db cases db',
        read_sales_cases get_sales_cases status_filter rep_filter
          current_user db
        = (Returns cases, db') ->
        get_sales_cases current_user status_filter rep_filter db
        = (Returns cases, db'))
  /\ (forall case_id return_request current_user db report db',
        return_sales_case process_sales_case_return case_id return_request
          current_user db
        = (Returns report, db') ->
        process_sales_case_return case_id return_request current_user db
        = (Returns report, db')).
Proof.
  split; [ | split ].
  - intros *. rewrite create_outcome.
    destruct (create_sales_case _ _) as [[c | e] db1];
      [intros H; exact H | discriminate].
  - intros *. rewrite list_delegates. intros H. exact H.
  - intros *. rewrite return_outcome.
    destruct (process_sales_case_return _ _ _ _) as [[r | e] db1];
      [intros H; exact H | discriminate].
Qed.

(** X6.  No handler touches the database beyond its one CRUD call: whether
    it returns, raises its own error or translates one, the state it leaves
    is the state that call left. *)
Theorem handlers_leave_state_to_crud :
  (forall case_create current_admin db,
     snd (create_new_sales_case create_sales_case case_create current_admin
            db)
     = snd (create_sales_case case_create db))
  /\ (forall status_filter rep_filter current_user db,
        snd (read_sales_cases get_sales_cases status_filter rep_filter
               current_user db)
        = snd (get_sales_cases current_user status_filter rep_filter db))
  /\ (forall case_id current_user db,
        snd (read_sales_case get_sales_case case_id current_user db)
        = snd (get_sales_case case_id db))
  /\ (forall case_id return_request current_user db,
        snd (return_sales_case process_sales_case_return case_id
               return_request current_user db)
        = snd (process_sales_case_return case_id return_request current_user
                 db)).
Proof.
  split; [ | split; [ | split ] ].
  - intros *. rewrite create_outcome.
    destruct (create_sales_case _ _) as [[c | e] db1];
      reflexivity.
  - intros *. rewrite list_delegates. reflexivity.
  - intros *. rewrite read_outcome.
    destruct (get_sales_case _ _) as [[[c | ] | e] db1]; reflexivity.
  - intros *. rewrite return_outcome.
    destruct (process_sales_case_return _ _ _ _) as [[r | e] db1];
      reflexivity.
Qed.

(** X7.  An [HTTPException] that the CRUD call itself raises goes through
    every handler as it came, status code and detail untouched: it is
    neither a ValueError nor a PermissionError, so no clause rewrites it. *)
Theorem crud_HTTPException_passes_through status_code detail :
  (forall case_create current_admin db db',
     create_sales_case case_create db
     = (Raises (HTTPException status_code detail), db') ->
     create_new_sales_case create_sales_case case_create current_admin db
     = (Raises (HTTPException status_code detail), db'))
  /\ (forall status_filter rep_filter current_user db db',
        get_sales_cases current_user status_filter rep_filter db
        = (Raises (HTTPException status_code detail), db') ->
        read_sales_cases get_sales_cases status_filter rep_filter
          current_user db
        = (Raises (HTTPException status_code detail), db'))
  /\ (forall case_id current_user db db',
        get_sales_case case_id db
        = (Raises (HTTPException status_code detail), db') ->
        read_sales_case get_sales_case case_id current_user db
        = (Raises (HTTPException status_code detail), db'))
  /\ (forall case_id return_request current_user db db',
        process_sales_case_return case_id return_request current_user db
        = (Raises (HTTPException status_code detail), db') ->
        return_sales_case process_sales_case_return case_id return_request
          current_user db
        = (Raises (HTTPException status_code detail), db')).
Proof.
  split; [ | split; [ | split ] ].
  - intros * H. apply (create_propagates _ _ _ _ _ _ H).
    apply HTTPException_is_no_ValueError.
  - intros * H. rewrite list_delegates. exact H.
  - intros * H. apply read_propagates. exact H.
  - intros * H. apply (return_propagates _ _ _ _ _ _ _ H).
    + apply HTTPException_is_no_ValueError.
    + apply HTTPException_is_no_PermissionError.
Qed.

(** X8.  Every exception that leaves the create handler stems from an
    exception of [crud.create_sales_case]: it is HTTP 400 carrying the
    message of a ValueError, or it is the CRUD call's exception itself, which
    then is no ValueError.  The handler issues no other status. *)
Theorem create_new_sales_case_error_origin case_create current_admin db
    raised db' :
  create_new_sales_case create_sales_case case_create current_admin db
  = (Raises raised, db') ->
  exists e,
    create_sales_case case_create db = (Raises e, db')
    /\ ((isinstance e ValueError = true
         /\ raised = HTTPException 400 (str e))
        \/ (isinstance e ValueError = false /\ raised = e)).
Proof.
  rewrite create_outcome.
  destruct (create_sales_case case_create db) as [[c | e] db1];
    [discriminate | ].
  intros H. injection H as <- <-. exists e. split; [reflexivity | ].
  destruct (isinstance e ValueError); [left | right]; split; reflexivity.
Qed.

(** X9.  Every exception that leaves the return handler stems from an
    exception of [crud.process_sales_case_return]: HTTP 400 carrying the
    message of a ValueError, HTTP 403 carrying the message of a
    PermissionError that is no ValueError, or the CRUD call's exception
    itself, which then is neither. *)
Theorem return_sales_case_error_origin case_id return_request current_user
    db raised db' :
  return_sales_case process_sales_case_return case_id return_request
    current_user db
  = (Raises raised, db') ->
  exists e,
    process_sales_case_return case_id return_request current_user db
    = (Raises e, db')
    /\ ((isinstance e ValueError = true
         /\ raised = HTTPException 400 (str e))
        \/ (isinstance e ValueError = false
            /\ isinstance e PermissionError = true
            /\ raised = HTTPException 403 (str e))
        \/ (isinstance e ValueError = false
            /\ isinstance e PermissionError = false
            /\ raised = e)).
Proof.
  rewrite return_outcome.
  destruct (process_sales_case_return case_id return_request current_user db)
    as [[r | e] db1]; [discriminate | ].
  intros H. injection H as <- <-. exists e. split; [reflexivity | ].
  destruct (isinstance e ValueError); [left; split; reflexivity | right].
  destruct (isinstance e PermissionError); [left | right];
    repeat split; reflexivity.
Qed.

(** X10.  In the return handler the ValueError clause comes first: an
    instance of PermissionError never leaves the handler as it came, its
    message is always the detail, and the status is 403 unless the exception
    is an instance of ValueError too, when it is 400. *)
Theorem return_sales_case_ValueError_first case_id return_request
    current_user db e db' :
  process_sales_case_return case_id return_request current_user db
  = (Raises e, db') ->
  isinstance e PermissionError = true ->
  return_sales_case process_sales_case_return case_id return_request
    current_user db
  = (Raises (HTTPException (if isinstance e ValueError then 400 else 403)
               (str e)),
     db').
Proof.
  intros H Hp. rewrite return_outcome, H, Hp.
  destruct (isinstance e ValueError); reflexivity.
Qed.

End Delegation.

Lemma handlers_return_what_crud_returned_witness :
  Sample.create_answering (Returns Sample.case10) tt tt
  = (Returns Sample.case10, tt)
  /\ Sample.list_answering (Returns [Sample.case10]) Sample.rep7 None None tt
     = (Returns [Sample.case10], tt)
  /\ Sample.return_answering (Returns "report") 10 "all sold" Sample.rep7 tt
     = (Returns "report", tt).
Proof.
  destruct (handlers_return_what_crud_returned
              (Sample.create_answering (Returns Sample.case10))
              (Sample.list_answering (Returns [Sample.case10]))
              (Sample.return_answering (Returns "report")))
    as (Hcreate & Hlist & Hreturn).
  split; [ | split ].
  - apply (Hcreate tt Sample.admin tt Sample.case10 tt). reflexivity.
  - apply (Hlist None None Sample.rep7 tt [Sample.case10] tt). reflexivity.
  - apply (Hreturn 10 "all sold" Sample.rep7 tt "report" tt). reflexivity.
Defined.

Lemma crud_HTTPException_passes_through_witness :
  create_new_sales_case
    (Sample.create_answering (Raises (HTTPException 409 "Duplicate case")))
    tt Sample.admin tt
  = (Raises (HTTPException 409 "Duplicate case"), tt)
  /\ return_sales_case
       (Sample.return_answering (Raises (HTTPException 409 "Duplicate case")))
       10 "all sold" Sample.rep7 tt
     = (Raises (HTTPException 409 "Duplicate case"), tt).
Proof.
  destruct (crud_HTTPException_passes_through
              (Sample.create_answering
                 (Raises (HTTPException 409 "Duplicate case")))
              (Sample.list_answering
                 (Raises (HTTPException 409 "Duplicate case")))
              (Sample.lookup_answering
                 (Raises (HTTPException 409 "Duplicate case")))
              (Sample.return_answering
                 (Raises (HTTPException 409 "Duplicate case")))
              409 "Duplicate case")
    as (Hcreate & _ & _ & Hreturn).
  split.
  - apply (Hcreate tt Sample.admin tt tt). reflexivity.
  - apply (Hreturn 10 "all sold" Sample.rep7 tt tt). reflexivity.
Defined.

Lemma create_new_sales_case_error_origin_witness :
  exists e,
    Sample.create_answering (Raises Sample.out_of_stock) tt tt
    = (Raises e, tt)
    /\ ((isinstance e ValueError = true
         /\ HTTPException 400 "Insufficient stock"
            = HTTPException 400 (str e))
        \/ (isinstance e ValueError = false
            /\ HTTPException 400 "Insufficient stock" = e)).
Proof.
  apply (create_new_sales_case_error_origin
           (Sample.create_answering (Raises Sample.out_of_stock))
           tt Sample.admin tt (HTTPException 400 "Insufficient stock") tt).
  reflexivity.
Defined.

Lemma return_sales_case_error_origin_witness :
  exists e,
    Sample.return_answering (Raises Sample.not_yours) 11 "all sold"
      Sample.rep7 tt
    = (Raises e, tt)
    /\ ((isinstance e ValueError = true
         /\ HTTPException 403 "Not your sales case"
            = HTTPException 400 (str e))
        \/ (isinstance e ValueError = false
            /\ isinstance e PermissionError = true
            /\ HTTPException 403 "Not your sales case"
               = HTTPException 403 (str e))
        \/ (isinstance e ValueError = false
            /\ isinstance e PermissionError = false
            /\ HTTPException 403 "Not your sales case" = e)).
Proof.
  apply (return_sales_case_error_origin
           (Sample.return_answering (Raises Sample.not_yours))
           11 "all sold" Sample.rep7 tt
           (HTTPException 403 "Not your sales case") tt).
  reflexivity.
Defined.

Lemma return_sales_case_ValueError_first_witness :
  return_sales_case (Sample.return_answering (Raises Sample.case_locked))
    10 "all sold" Sample.rep7 tt
  = (Raises (HTTPException 400 "Case is locked"), tt)
  /\ return_sales_case (Sample.return_answering (Raises Sample.not_yours))
       11 "all sold" Sample.rep7 tt
     = (Raises (HTTPException 403 "Not your sales case"), tt).
Proof.
  split.
  - apply (return_sales_case_ValueError_first
             (Sample.return_answering (Raises Sample.case_locked))
             10 "all sold" Sample.rep7 tt Sample.case_locked tt);
      reflexivity.
  - apply (return_sales_case_ValueError_first
             (Sample.return_answering (Raises Sample.not_yours))
             11 "all sold" Sample.rep7 tt Sample.not_yours tt);
      reflexivity.
Defined.
